(** * FlipBinding: the C boundary of the FLIP image-difference metric

    A shallow embedding of [flip-native/flip_capi.cpp] and [flip_capi.h]:
    the three exported functions [flip_calculate_ppd], [flip_evaluate] and
    [flip_free], over an explicit model of the memory they share with the
    caller and with the wrapped FLIP library. *)

From stdpp Require Import gmap strings list fin_maps.

Local Open Scope Z_scope.

(** ** Scalars and pointers *)

(** A C [float]: an IEEE-754 binary32 value, kept as its bit pattern.  The
    boundary never computes on floats, it only copies them. *)
Record float := Float32 { float_bits : Z }.

#[global] Instance float_eq_dec : EqDecision float.
Proof. solve_decision. Defined.

(** [0.0f] *)
Definition f_zero : float := Float32 0.
(** [std::numeric_limits<float>::infinity()] *)
Definition f_infinity : float := Float32 0x7f800000.

(** Float objects live in blocks; a [float*] is null or names a block and an
    element offset in it. *)
Definition block := positive.

Inductive pointer :=
| NULL
| Ptr (b : block) (ofs : nat).

Arguments Ptr b%_positive ofs%_nat.

#[global] Instance pointer_eq_dec : EqDecision pointer.
Proof. solve_decision. Defined.

(** [if (p)] on a pointer. *)
Definition non_null (p : pointer) : bool :=
  match p with NULL => false | Ptr _ _ => true end.

(** [x != 0], and [if (x)], on an [int]. *)
Definition nonzero (x : Z) : bool := negb (x =? 0).

(** ** Memory *)

(** [floats]: every float object, the caller's buffers and scalars as well as
    the arrays of the free store.  [heap_arrays]: the blocks that came from
    [new float[n]] and were not deleted yet.  [slots]: the [float*] objects,
    by address; a [float**] is [None] (null) or [Some] address of a slot. *)
Record memory := Mem {
  floats : gmap block (list float);
  heap_arrays : gset block;
  slots : gmap positive pointer
}.

Definition load (m : memory) (p : pointer) : option float :=
  match p with
  | NULL => None
  | Ptr b ofs =>
      match floats m !! b with
      | Some l => l !! ofs
      | None => None
      end
  end.

Definition load_array (m : memory) (p : pointer) (n : nat) : option (list float) :=
  match p with
  | NULL => None
  | Ptr b ofs =>
      match floats m !! b with
      | Some l =>
          if decide (ofs + n <= length l)%nat then Some (take n (drop ofs l)) else None
      | None => None
      end
  end.

(** The float cells [p[0]], ..., [p[n-1]]. *)
Definition in_range (p : pointer) (n : nat) (q : pointer) : Prop :=
  match p, q with
  | Ptr b ofs, Ptr b' ofs' => b = b' ∧ (ofs <= ofs' < ofs + n)%nat
  | _, _ => False
  end.

#[global] Instance in_range_dec p n q : Decision (in_range p n q).
Proof. destruct p, q; simpl; apply _. Defined.

(** Every live [new[]] block is one of the float objects. *)
Definition wf_memory (m : memory) : Prop := heap_arrays m ⊆ dom (floats m).

(** ** Computations on the memory

    A call either is undefined (a fault, or behaviour the C++ standard leaves
    open) or yields a value and the next memory. *)
Definition M (A : Type) : Type := memory -> option (A * memory).

Definition ret {A} (a : A) : M A := fun m => Some (a, m).

Definition bind {A B} (c : M A) (k : A -> M B) : M B :=
  fun m =>
    match c m with
    | Some (a, m') => k a m'
    | None => None
    end.

Definition undefined {A} : M A := fun _ => None.

Notation "x <-- c ;; k" := (bind c (fun x => k))
  (at level 20, c at level 99, k at level 200, only parsing).

Definition read_array (p : pointer) (n : nat) : M (list float) :=
  fun m =>
    match load_array m p n with
    | Some l => Some (l, m)
    | None => None
    end.

(** [*p = v] *)
Definition write_float (p : pointer) (v : float) : M unit :=
  fun m =>
    match p with
    | NULL => None
    | Ptr b ofs =>
        match floats m !! b with
        | Some l =>
            if decide (ofs < length l)%nat
            then Some (tt, Mem (<[b := <[ofs := v]> l]> (floats m)) (heap_arrays m) (slots m))
            else None
        | None => None
        end
    end.

(** [*pp = p] through a [float**] *)
Definition write_slot (pp : option positive) (p : pointer) : M unit :=
  fun m =>
    match pp with
    | Some a =>
        match slots m !! a with
        | Some _ => Some (tt, Mem (floats m) (heap_arrays m) (<[a := p]> (slots m)))
        | None => None
        end
    | None => None
    end.

(** [new float[n]], filled with [data] ([n] is its length) *)
Definition new_array (data : list float) : M pointer :=
  fun m =>
    let b := fresh (dom (floats m)) in
    Some (Ptr b 0, Mem (<[b := data]> (floats m)) ({[b]} ∪ heap_arrays m) (slots m)).

(** [delete[] p]: defined on null and on the start of a live [new[]] block. *)
Definition delete_array (p : pointer) : M unit :=
  fun m =>
    match p with
    | NULL => Some (tt, m)
    | Ptr b O =>
        if decide (b ∈ heap_arrays m)
        then Some (tt, Mem (delete b (floats m)) (heap_arrays m ∖ {[b]}) (slots m))
        else None
    | Ptr _ (S _) => None
    end.

(** [n] calls in a row, with their results. *)
Fixpoint repeat_call {A} (n : nat) (c : M A) : M (list A) :=
  match n with
  | O => ret []
  | S n' => a <-- c ;; l <-- repeat_call n' c ;; ret (a :: l)
  end.

(** ** The wrapped library (namespace [FLIP]) *)

Module FLIP.

(** [FLIP::Parameters] *)
Record Parameters := mkParameters {
  PPD : float;
  startExposure : float;
  stopExposure : float;
  numExposures : Z;
  tonemapper : string
}.

(** Assignment to one member: [params.PPD = v] and so on. *)
Definition set_PPD (v : float) (params : Parameters) : Parameters :=
  mkParameters v (startExposure params) (stopExposure params) (numExposures params)
    (tonemapper params).

Definition set_startExposure (v : float) (params : Parameters) : Parameters :=
  mkParameters (PPD params) v (stopExposure params) (numExposures params)
    (tonemapper params).

Definition set_stopExposure (v : float) (params : Parameters) : Parameters :=
  mkParameters (PPD params) (startExposure params) v (numExposures params)
    (tonemapper params).

Definition set_numExposures (v : Z) (params : Parameters) : Parameters :=
  mkParameters (PPD params) (startExposure params) (stopExposure params) v
    (tonemapper params).

Definition set_tonemapper (v : string) (params : Parameters) : Parameters :=
  mkParameters (PPD params) (startExposure params) (stopExposure params)
    (numExposures params) v.

(** The arithmetic of the library, which the boundary only calls:
    [calculatePPD] is [FLIP::calculatePPD]; [errorSample] gives the sample
    at an index of the output buffer and [meanError] the mean, both from the
    pixels of the two images, their size, the mode and the parameters. *)
Record Numerics := mkNumerics {
  calculatePPD : float -> float -> float -> float;
  errorSample :
    list float -> list float -> Z -> Z -> bool -> Parameters -> bool -> nat -> float;
  meanError :
    list float -> list float -> Z -> Z -> bool -> Parameters -> float
}.

Section Engine.
Context (N : Numerics).

(** Modelled from the spec: the default member values of
    [FLIP::Parameters] ([FLIP.h], not in the sources here), as the
    comments of [flip_capi.h] and section 3 document them: PPD from a
    distance of 0.7 m, 3840 pixels and a monitor 0.7 m wide; both
    exposures infinite; exposure count -1; tonemapper aces. *)
Definition default_Parameters : Parameters :=
  {| PPD := calculatePPD N (Float32 0x3f333333) (Float32 0x45700000) (Float32 0x3f333333);
     startExposure := f_infinity;
     stopExposure := f_infinity;
     numExposures := -1;
     tonemapper := "aces" |}.

(** Modelled from the spec: the pointer-based [FLIP::evaluate]
    ([FLIP.h], not in the sources here), after section 4.2, steps 2 and
    3: it reads the two images of [3 * width * height] floats, allocates
    the output buffer ([width * height] floats, three times that when
    colour mapped), fills it, writes its address through the output slot,
    and writes the mean into the accumulator if asked.  Dimensions that
    are not positive, unreadable images and a null output slot are left
    undefined.  The result is the accumulator after the call. *)
Definition evaluate (reference test : pointer) (imageWidth imageHeight : Z)
    (useHDR : bool) (parameters : Parameters)
    (applyMagmaMapToOutput computeMeanFLIPError : bool)
    (meanFLIPError : float) (errorMapFLIPOutput : option positive) : M float :=
  if decide (0 < imageWidth ∧ 0 < imageHeight) then
    let n := Z.to_nat (imageWidth * imageHeight) in
    ref <-- read_array reference (3 * n) ;;
    tst <-- read_array test (3 * n) ;;
    let len := if applyMagmaMapToOutput then (3 * n)%nat else n in
    buf <-- new_array
              (map (errorSample N ref tst imageWidth imageHeight useHDR parameters
                      applyMagmaMapToOutput) (seq 0 len)) ;;
    _ <-- write_slot errorMapFLIPOutput buf ;;
    ret (if computeMeanFLIPError
         then meanError N ref tst imageWidth imageHeight useHDR parameters
         else meanFLIPError)
  else undefined.

End Engine.

End FLIP.

(** ** The boundary ([flip_capi.h], [flip_capi.cpp]) *)

(** [FlipParameters].  [tonemapper] is a [const char*]: [None] is the null
    pointer, [Some s] a pointer to the text [s] and its terminating NUL. *)
Record FlipParameters := mkFlipParameters {
  ppd : float;
  start_exposure : float;
  stop_exposure : float;
  num_exposures : Z;
  tonemapper : option string
}.

Section Boundary.
Context (N : FLIP.Numerics).

Definition flip_calculate_ppd (viewing_distance resolution_x monitor_width : float)
  : M float :=
  ret (FLIP.calculatePPD N viewing_distance resolution_x monitor_width).

(** "Set up FLIP parameters": [parameters] is [None] for a null pointer. *)
Definition setup_parameters (parameters : option FlipParameters) : FLIP.Parameters :=
  let params := FLIP.default_Parameters N in
  match parameters with
  | Some p =>
      let params := FLIP.set_PPD (ppd p) params in
      let params := FLIP.set_startExposure (start_exposure p) params in
      let params := FLIP.set_stopExposure (stop_exposure p) params in
      let params := FLIP.set_numExposures (num_exposures p) params in
      match tonemapper p with
      | Some s => FLIP.set_tonemapper s params
      | None => params
      end
  | None => params
  end.

(** "Store mean error if requested" *)
Definition store_mean_error (compute_mean_error : Z) (mean_error : pointer)
    (meanFLIPError : float) : M unit :=
  if nonzero compute_mean_error && non_null mean_error
  then write_float mean_error meanFLIPError
  else ret tt.

Definition flip_evaluate (reference test : pointer) (width height use_hdr : Z)
    (parameters : option FlipParameters) (apply_magma_map compute_mean_error : Z)
    (mean_error : pointer) (error_map : option positive) : M unit :=
  let params := setup_parameters parameters in
  let meanFLIPError := f_zero in
  meanFLIPError <-- FLIP.evaluate N reference test width height (nonzero use_hdr)
                      params (nonzero apply_magma_map) (nonzero compute_mean_error)
                      meanFLIPError error_map ;;
  store_mean_error compute_mean_error mean_error meanFLIPError.

Definition flip_free (ptr : pointer) : M unit :=
  if non_null ptr then delete_array ptr else ret tt.

(** *** Names for the statements below *)

(** The memory the library call leaves behind. *)
Definition engine_memory (m : memory) (a : positive) (data : list float) : memory :=
  Mem (<[fresh (dom (floats m)) := data]> (floats m))
      ({[fresh (dom (floats m))]} ∪ heap_arrays m)
      (<[a := Ptr (fresh (dom (floats m))) 0]> (slots m)).

(** The samples the library puts in the output buffer. *)
Definition engine_samples (ref tst : list float) (width height use_hdr : Z)
    (parameters : option FlipParameters) (apply_magma_map : Z) : list float :=
  map (FLIP.errorSample N ref tst width height (nonzero use_hdr)
         (setup_parameters parameters) (nonzero apply_magma_map))
    (seq 0 (if nonzero apply_magma_map then 3 * Z.to_nat (width * height)
            else Z.to_nat (width * height))%nat).

(** The length of the buffer handed back, in floats. *)
Definition error_map_length (width height apply_magma_map : Z) : Z :=
  if apply_magma_map =? 0 then width * height else 3 * width * height.

End Boundary.

(** ** A small instance, for running the model *)

Definition f_one : float := Float32 0x3f800000.
Definition f_half : float := Float32 0x3f000000.

(** Error 0 where the images agree and 1 where they differ. *)
Definition toy : FLIP.Numerics :=
  {| FLIP.calculatePPD := fun d r w => r;
     FLIP.errorSample := fun ref tst _ _ _ _ _ i =>
       if bool_decide (ref !! i = tst !! i) then f_zero else f_one;
     FLIP.meanError := fun ref tst _ _ _ _ =>
       if bool_decide (ref = tst) then f_zero else f_one |}.

(** One 1x1 image in block 1, another in block 2, a scalar in block 3 and one
    pointer slot at address 1. *)
Definition mem0 : memory :=
  Mem (<[1%positive := [f_half; f_half; f_half]]>
        (<[2%positive := [f_half; f_one; f_half]]>
          (<[3%positive := [f_infinity]]> ∅)))
      ∅
      (<[1%positive := NULL]> ∅).


(** [mem0] after a call that left a one-float error map in block 4. *)
Definition mem_after_call : memory :=
  Mem (<[4%positive := [f_zero]]> (floats mem0)) {[4%positive]}
      (<[1%positive := Ptr 4 0]> (slots mem0)).

(** ** Lemmas on the memory operations *)

Lemma nonzero_true (x : Z) : nonzero x = true <-> x <> 0.
Proof. unfold nonzero. destruct (Z.eqb_spec x 0); simpl; split; intros; congruence. Qed.

Lemma nonzero_iff (x y : Z) : (x = 0 <-> y = 0) -> nonzero x = nonzero y.
Proof.
  unfold nonzero. intros H.
  destruct (Z.eqb_spec x 0), (Z.eqb_spec y 0); simpl; try reflexivity; tauto.
Qed.

Lemma non_null_true (p : pointer) : non_null p = true <-> p <> NULL.
Proof. destruct p; simpl; split; intros; congruence. Qed.

Lemma load_Some_dom m b ofs v : load m (Ptr b ofs) = Some v -> b ∈ dom (floats m).
Proof.
  simpl. intros H. apply elem_of_dom.
  destruct (floats m !! b); [eauto | discriminate].
Qed.

Lemma load_array_Some_dom m b ofs n l :
  load_array m (Ptr b ofs) n = Some l -> b ∈ dom (floats m).
Proof.
  simpl. intros H. apply elem_of_dom.
  destruct (floats m !! b); [eauto | discriminate].
Qed.

Section Frames.
Context (m : memory) (data : list float) (h : gset block) (s : gmap positive pointer).

Local Abbreviation b := (fresh (dom (floats m))).

Lemma fresh_block_not_live : b ∉ dom (floats m).
Proof. apply is_fresh. Qed.

(** Allocation leaves every float that was readable before as it was. *)
Lemma load_after_new q v :
  load m q = Some v -> load (Mem (<[b := data]> (floats m)) h s) q = Some v.
Proof.
  destruct q as [|b' ofs]; [discriminate|]. intros H.
  pose proof (load_Some_dom _ _ _ _ H) as Hd.
  simpl in *. rewrite lookup_insert_ne; [exact H|].
  intros Heq. apply fresh_block_not_live. by rewrite Heq.
Qed.

Lemma load_array_after_new q n l :
  load_array m q n = Some l ->
  load_array (Mem (<[b := data]> (floats m)) h s) q n = Some l.
Proof.
  destruct q as [|b' ofs]; [discriminate|]. intros H.
  pose proof (load_array_Some_dom _ _ _ _ _ H) as Hd.
  simpl in *. rewrite lookup_insert_ne; [exact H|].
  intros Heq. apply fresh_block_not_live. by rewrite Heq.
Qed.
End Frames.

(** A store is seen at its own cell and nowhere else. *)
Lemma load_after_write m p v m' q :
  write_float p v m = Some (tt, m') ->
  load m' q = if decide (q = p) then Some v else load m q.
Proof.
  unfold write_float. destruct p as [|b ofs]; [discriminate|].
  destruct (floats m !! b) as [l|] eqn:Hb; [|discriminate].
  destruct (decide (ofs < length l)%nat) as [Hlt|]; [|discriminate].
  intros [= <-]. destruct q as [|b' ofs'].
  - rewrite decide_False by discriminate. reflexivity.
  - simpl. destruct (decide (b' = b)) as [->|Hne].
    + rewrite lookup_insert_eq, Hb.
      destruct (decide (ofs' = ofs)) as [->|Hn].
      * rewrite decide_True by reflexivity. by apply list_lookup_insert_eq.
      * rewrite decide_False by congruence. by apply list_lookup_insert_ne.
    + rewrite lookup_insert_ne by congruence.
      rewrite decide_False by congruence. reflexivity.
Qed.

Lemma write_float_defined m p v :
  is_Some (load m p) -> exists m', write_float p v m = Some (tt, m').
Proof.
  intros [x H]. destruct p as [|b ofs]; [discriminate|].
  unfold write_float. simpl in H.
  destruct (floats m !! b) as [l|]; [|discriminate].
  apply lookup_lt_Some in H.
  rewrite decide_True by exact H. eauto.
Qed.

Lemma write_float_slots m p v m' :
  write_float p v m = Some (tt, m') -> slots m' = slots m.
Proof.
  unfold write_float. destruct p as [|b ofs]; [discriminate|].
  destruct (floats m !! b) as [l|]; [|discriminate].
  destruct (decide (ofs < length l)%nat); [|discriminate].
  by intros [= <-].
Qed.

(** A store keeps every block and its length. *)
Lemma write_float_length m p v m' b l :
  write_float p v m = Some (tt, m') -> floats m !! b = Some l ->
  exists l', floats m' !! b = Some l' /\ length l' = length l.
Proof.
  unfold write_float. destruct p as [|b0 ofs]; [discriminate|].
  destruct (floats m !! b0) as [l0|] eqn:Hb; [|discriminate].
  destruct (decide (ofs < length l0)%nat); [|discriminate].
  intros [= <-] Hl. simpl. destruct (decide (b0 = b)) as [->|Hne].
  - rewrite lookup_insert_eq. rewrite Hb in Hl. injection Hl as ->.
    eexists; split; [reflexivity | apply length_insert].
  - rewrite lookup_insert_ne by exact Hne. eauto.
Qed.

(** A store outside an array leaves the array as it was. *)
Lemma load_array_after_write m p v m' q n :
  write_float p v m = Some (tt, m') -> ~ in_range q n p ->
  load_array m' q n = load_array m q n.
Proof.
  unfold write_float. destruct p as [|b ofs]; [discriminate|].
  destruct (floats m !! b) as [l|] eqn:Hb; [|discriminate].
  destruct (decide (ofs < length l)%nat) as [Hlt|]; [|discriminate].
  intros [= <-] Hout. destruct q as [|b' ofs']; [reflexivity|].
  simpl in *. destruct (decide (b = b')) as [<-|Hne].
  - rewrite lookup_insert_eq, Hb, length_insert.
    destruct (decide (ofs' + n <= length l)%nat); [|reflexivity].
    f_equal. apply list_eq. intros i.
    destruct (decide (i < n)%nat) as [Hi|Hi].
    + rewrite !lookup_take_lt, !lookup_drop by exact Hi.
      apply list_lookup_insert_ne. intros ->. apply Hout. split; [reflexivity | lia].
    + rewrite !lookup_take_ge by lia. reflexivity.
  - rewrite lookup_insert_ne by exact Hne. reflexivity.
Qed.

Lemma of_nat_three_times (w h : Z) :
  0 < w -> 0 < h -> Z.of_nat (3 * Z.to_nat (w * h)) = 3 * w * h.
Proof. intros Hw Hh. nia. Qed.

(** ** What the library call does, when it is defined *)

Section EngineCall.
Context (N : FLIP.Numerics).

Lemma evaluate_defined reference test width height useHDR parameters magma mean acc a m ref tst :
  0 < width -> 0 < height ->
  load_array m reference (3 * Z.to_nat (width * height)) = Some ref ->
  load_array m test (3 * Z.to_nat (width * height)) = Some tst ->
  is_Some (slots m !! a) ->
  FLIP.evaluate N reference test width height useHDR parameters magma mean acc (Some a) m =
    Some (if mean then FLIP.meanError N ref tst width height useHDR parameters else acc,
          Mem (<[fresh (dom (floats m)) :=
                   map (FLIP.errorSample N ref tst width height useHDR parameters magma)
                     (seq 0 (if magma then 3 * Z.to_nat (width * height)
                             else Z.to_nat (width * height))%nat)]> (floats m))
              ({[fresh (dom (floats m))]} ∪ heap_arrays m)
              (<[a := Ptr (fresh (dom (floats m))) 0]> (slots m))).
Proof.
  intros Hw Hh Hr Ht [p0 Hs]. unfold FLIP.evaluate.
  rewrite decide_True by (split; assumption).
  unfold bind, read_array. rewrite Hr, Ht.
  unfold new_array, write_slot. simpl. rewrite Hs. reflexivity.
Qed.
End EngineCall.

(** ** The exported functions *)

Section Claims.
Context (N : FLIP.Numerics).

Lemma engine_samples_length ref tst width height use_hdr parameters apply_magma_map :
  0 < width -> 0 < height ->
  Z.of_nat (length (engine_samples N ref tst width height use_hdr parameters apply_magma_map))
  = error_map_length width height apply_magma_map.
Proof.
  intros Hw Hh. unfold engine_samples, error_map_length, nonzero.
  rewrite length_map, length_seq.
  destruct (apply_magma_map =? 0); simpl negb; cbv iota.
  - apply Z2Nat.id. nia.
  - by apply of_nat_three_times.
Qed.

(** With readable images and a valid output slot, [flip_evaluate] is the
    store of the mean after the library call. *)
Lemma flip_evaluate_unfold reference test width height use_hdr parameters
    apply_magma_map compute_mean_error mean_error a m ref tst :
  0 < width -> 0 < height ->
  load_array m reference (3 * Z.to_nat (width * height)) = Some ref ->
  load_array m test (3 * Z.to_nat (width * height)) = Some tst ->
  is_Some (slots m !! a) ->
  flip_evaluate N reference test width height use_hdr parameters apply_magma_map
    compute_mean_error mean_error (Some a) m
  = store_mean_error compute_mean_error mean_error
      (if nonzero compute_mean_error
       then FLIP.meanError N ref tst width height (nonzero use_hdr)
              (setup_parameters N parameters)
       else f_zero)
      (engine_memory m a
         (engine_samples N ref tst width height use_hdr parameters apply_magma_map)).
Proof.
  intros Hw Hh Hr Ht Hs. unfold flip_evaluate, bind.
  rewrite (evaluate_defined N _ _ _ _ _ _ _ _ _ _ _ ref tst Hw Hh Hr Ht Hs).
  reflexivity.
Qed.

(** C1: with readable images, a valid output slot and a writable
    destination, [flip_evaluate] returns, and every float that was readable
    before the call reads the same after it, but for the one at
    [mean_error] when [compute_mean_error] is non-zero and [mean_error] is
    not null: that one reads the mean the library computed. *)
Theorem flip_evaluate_mean_error reference test width height use_hdr parameters
    apply_magma_map compute_mean_error mean_error a m ref tst :
  0 < width -> 0 < height ->
  load_array m reference (3 * Z.to_nat (width * height)) = Some ref ->
  load_array m test (3 * Z.to_nat (width * height)) = Some tst ->
  is_Some (slots m !! a) ->
  (compute_mean_error <> 0 -> mean_error <> NULL -> is_Some (load m mean_error)) ->
  exists m',
    flip_evaluate N reference test width height use_hdr parameters apply_magma_map
      compute_mean_error mean_error (Some a) m = Some (tt, m')
    /\ forall q v, load m q = Some v ->
         load m' q =
           Some (if decide (compute_mean_error <> 0 /\ mean_error <> NULL /\ q = mean_error)
                 then FLIP.meanError N ref tst width height (nonzero use_hdr)
                        (setup_parameters N parameters)
                 else v).
Proof.
  intros Hw Hh Hr Ht Hs Hdst.
  rewrite (flip_evaluate_unfold _ _ _ _ _ _ _ _ _ _ _ ref tst Hw Hh Hr Ht Hs).
  unfold store_mean_error.
  destruct (nonzero compute_mean_error) eqn:Hc.
  - apply nonzero_true in Hc. destruct (non_null mean_error) eqn:Hp; simpl.
    + apply non_null_true in Hp. destruct (Hdst Hc Hp) as [x Hx].
      edestruct write_float_defined as [m' Hm'].
      { exists x. eapply load_after_new, Hx. }
      exists m'. split; [exact Hm'|]. intros q v Hq.
      rewrite (load_after_write _ _ _ _ q Hm').
      destruct (decide (q = mean_error)) as [->|Hne].
      * rewrite decide_True by tauto. reflexivity.
      * rewrite decide_False by tauto. by apply load_after_new.
    + eexists. split; [reflexivity|]. intros q v Hq.
      rewrite decide_False; [by apply load_after_new|].
      intros (_ & Hnn & _). apply non_null_true in Hnn. congruence.
  - simpl. eexists. split; [reflexivity|]. intros q v Hq.
    rewrite decide_False; [by apply load_after_new|].
    intros (Hnz & _). apply nonzero_true in Hnz. congruence.
Qed.

(** C2: a record whose fields hold the defaults of [FLIP::Parameters] is
    set up to the default parameters, as the null pointer is, and
    [flip_evaluate] does the same with either. *)
Theorem flip_evaluate_null_parameters (p : FlipParameters) :
  ppd p = FLIP.PPD (FLIP.default_Parameters N) ->
  start_exposure p = FLIP.startExposure (FLIP.default_Parameters N) ->
  stop_exposure p = FLIP.stopExposure (FLIP.default_Parameters N) ->
  num_exposures p = FLIP.numExposures (FLIP.default_Parameters N) ->
  tonemapper p = Some (FLIP.tonemapper (FLIP.default_Parameters N)) ->
  setup_parameters N None = FLIP.default_Parameters N
  /\ setup_parameters N (Some p) = FLIP.default_Parameters N
  /\ forall reference test width height use_hdr apply_magma_map compute_mean_error
       mean_error error_map m,
       flip_evaluate N reference test width height use_hdr None apply_magma_map
         compute_mean_error mean_error error_map m
       = flip_evaluate N reference test width height use_hdr (Some p) apply_magma_map
           compute_mean_error mean_error error_map m.
Proof.
  intros Hppd Hstart Hstop Hnum Htm.
  assert (Heq : setup_parameters N (Some p) = FLIP.default_Parameters N).
  { unfold setup_parameters. rewrite Htm, Hppd, Hstart, Hstop, Hnum. reflexivity. }
  split; [reflexivity|]. split; [exact Heq|].
  intros. unfold flip_evaluate. rewrite Heq. reflexivity.
Qed.

(** A record whose tonemapper is the null pointer keeps the tonemapper of
    the default parameters, next to its own four numbers. *)
Lemma setup_parameters_null_tonemapper (p : FlipParameters) :
  tonemapper p = None ->
  setup_parameters N (Some p)
  = FLIP.mkParameters (ppd p) (start_exposure p) (stop_exposure p) (num_exposures p)
      (FLIP.tonemapper (FLIP.default_Parameters N)).
Proof. intros H. unfold setup_parameters. rewrite H. reflexivity. Qed.

(** A tonemapper that is not null is copied, whatever its text. *)
Lemma setup_parameters_tonemapper_copied (p : FlipParameters) (s : string) :
  tonemapper p = Some s -> FLIP.tonemapper (setup_parameters N (Some p)) = s.
Proof. intros H. unfold setup_parameters. rewrite H. reflexivity. Qed.

(** A tonemapper that is not null is copied next to the four numbers. *)
Lemma setup_parameters_some_tonemapper (p : FlipParameters) (s : string) :
  tonemapper p = Some s ->
  setup_parameters N (Some p)
  = FLIP.mkParameters (ppd p) (start_exposure p) (stop_exposure p) (num_exposures p) s.
Proof. intros H. unfold setup_parameters. rewrite H. reflexivity. Qed.

(** C3, as amended: for a record whose tonemapper is the null pointer, the
    tonemapper [flip_evaluate] hands to the library is that of the default
    parameters: the call is the library call on the record's four numbers and
    the default tonemapper, then the store of the mean.  For a record whose
    tonemapper is not null, the text it points to, empty or not, is handed
    over as it is: the call is the library call on the four numbers and that
    text, then the store of the mean. *)
Theorem flip_evaluate_tonemapper (p : FlipParameters) :
  (tonemapper p = None ->
   FLIP.tonemapper (setup_parameters N (Some p))
   = FLIP.tonemapper (FLIP.default_Parameters N)
   /\ forall reference test width height use_hdr apply_magma_map compute_mean_error
        mean_error error_map,
        flip_evaluate N reference test width height use_hdr (Some p) apply_magma_map
          compute_mean_error mean_error error_map
        = (mu <-- FLIP.evaluate N reference test width height (nonzero use_hdr)
                    (FLIP.mkParameters (ppd p) (start_exposure p) (stop_exposure p)
                       (num_exposures p) (FLIP.tonemapper (FLIP.default_Parameters N)))
                    (nonzero apply_magma_map) (nonzero compute_mean_error) f_zero error_map ;;
           store_mean_error compute_mean_error mean_error mu))
  /\ (forall s : string, tonemapper p = Some s ->
      FLIP.tonemapper (setup_parameters N (Some p)) = s
      /\ forall reference test width height use_hdr apply_magma_map compute_mean_error
           mean_error error_map,
           flip_evaluate N reference test width height use_hdr (Some p) apply_magma_map
             compute_mean_error mean_error error_map
           = (mu <-- FLIP.evaluate N reference test width height (nonzero use_hdr)
                       (FLIP.mkParameters (ppd p) (start_exposure p) (stop_exposure p)
                          (num_exposures p) s)
                       (nonzero apply_magma_map) (nonzero compute_mean_error) f_zero
                       error_map ;;
              store_mean_error compute_mean_error mean_error mu)).
Proof.
  split.
  - intros Hnull. split.
    + by rewrite (setup_parameters_null_tonemapper p Hnull).
    + intros. unfold flip_evaluate.
      by rewrite (setup_parameters_null_tonemapper p Hnull).
  - intros s Hsome. split.
    + by rewrite (setup_parameters_some_tonemapper p s Hsome).
    + intros. unfold flip_evaluate.
      by rewrite (setup_parameters_some_tonemapper p s Hsome).
Qed.

(** C4: the four numbers of a record reach the library as they are, and
    [flip_evaluate] calls the library with exactly the parameters set up
    from the record. *)
Theorem flip_evaluate_forwards_fields (p : FlipParameters) :
  FLIP.PPD (setup_parameters N (Some p)) = ppd p
  /\ FLIP.startExposure (setup_parameters N (Some p)) = start_exposure p
  /\ FLIP.stopExposure (setup_parameters N (Some p)) = stop_exposure p
  /\ FLIP.numExposures (setup_parameters N (Some p)) = num_exposures p
  /\ forall reference test width height use_hdr apply_magma_map compute_mean_error
       mean_error error_map,
       flip_evaluate N reference test width height use_hdr (Some p) apply_magma_map
         compute_mean_error mean_error error_map
       = (mu <-- FLIP.evaluate N reference test width height (nonzero use_hdr)
                   (FLIP.mkParameters (ppd p) (start_exposure p) (stop_exposure p)
                      (num_exposures p)
                      (default (FLIP.tonemapper (FLIP.default_Parameters N)) (tonemapper p)))
                   (nonzero apply_magma_map) (nonzero compute_mean_error) f_zero error_map ;;
          store_mean_error compute_mean_error mean_error mu).
Proof.
  unfold flip_evaluate, setup_parameters.
  destruct (tonemapper p); simpl; repeat split; reflexivity.
Qed.

(** C5: any number of [flip_free] calls on the null pointer all return,
    and leave the memory, its live [new[]] blocks included, as it was. *)
Theorem flip_free_null (n : nat) (m : memory) :
  repeat_call n (flip_free NULL) m = Some (replicate n tt, m).
Proof.
  induction n as [|n IH]; [reflexivity|].
  simpl. unfold bind at 1. simpl. unfold bind at 1. rewrite IH. reflexivity.
Qed.

(** C6: with readable images, a valid output slot and a writable
    destination, [flip_evaluate] returns and the output slot points to the
    start of a new block of [width * height] floats when [apply_magma_map]
    is zero, and of [3 * width * height] floats otherwise. *)
Theorem flip_evaluate_error_map_length reference test width height use_hdr parameters
    apply_magma_map compute_mean_error mean_error a m ref tst :
  0 < width -> 0 < height ->
  load_array m reference (3 * Z.to_nat (width * height)) = Some ref ->
  load_array m test (3 * Z.to_nat (width * height)) = Some tst ->
  is_Some (slots m !! a) ->
  (compute_mean_error <> 0 -> mean_error <> NULL -> is_Some (load m mean_error)) ->
  exists m' b data,
    flip_evaluate N reference test width height use_hdr parameters apply_magma_map
      compute_mean_error mean_error (Some a) m = Some (tt, m')
    /\ slots m' !! a = Some (Ptr b 0)
    /\ (b ∉ dom (floats m))
    /\ floats m' !! b = Some data
    /\ Z.of_nat (length data) = error_map_length width height apply_magma_map.
Proof.
  intros Hw Hh Hr Ht Hs Hdst.
  rewrite (flip_evaluate_unfold _ _ _ _ _ _ _ _ _ _ _ ref tst Hw Hh Hr Ht Hs).
  set (data := engine_samples N ref tst width height use_hdr parameters apply_magma_map).
  assert (Hlen : Z.of_nat (length data) = error_map_length width height apply_magma_map)
    by (by apply engine_samples_length).
  assert (Hb : floats (engine_memory m a data) !! fresh (dom (floats m)) = Some data)
    by apply lookup_insert_eq.
  assert (Ha : slots (engine_memory m a data) !! a = Some (Ptr (fresh (dom (floats m))) 0))
    by apply lookup_insert_eq.
  unfold store_mean_error.
  destruct (nonzero compute_mean_error && non_null mean_error) eqn:Hc.
  - apply andb_true_iff in Hc as [Hc Hp].
    apply nonzero_true in Hc. apply non_null_true in Hp.
    destruct (Hdst Hc Hp) as [x Hx].
    edestruct write_float_defined as [m' Hm'].
    { exists x. eapply load_after_new, Hx. }
    destruct (write_float_length _ _ _ _ _ _ Hm' Hb) as (l' & Hl' & Hlen').
    exists m', (fresh (dom (floats m))), l'. split; [exact Hm'|].
    rewrite (write_float_slots _ _ _ _ Hm'), Hlen'.
    repeat split; [exact Ha | apply is_fresh | exact Hl' | exact Hlen].
  - exists (engine_memory m a data), (fresh (dom (floats m))), data.
    repeat split; [exact Ha | apply is_fresh | exact Hb | exact Hlen].
Qed.

(** C7: for fixed arguments there is one value that every call of
    [flip_calculate_ppd] returns, however many calls are made and whatever
    the memory is; the calls leave the memory as it was. *)
Theorem flip_calculate_ppd_pure (viewing_distance resolution_x monitor_width : float) :
  exists v, forall (n : nat) (m : memory),
    repeat_call n (flip_calculate_ppd N viewing_distance resolution_x monitor_width) m
    = Some (replicate n v, m).
Proof.
  eexists. intros n m. induction n as [|n IH]; [reflexivity|].
  simpl. unfold bind at 1. unfold flip_calculate_ppd at 1, ret at 1.
  unfold bind at 1. rewrite IH. reflexivity.
Qed.

(** C8: whatever the arguments, [flip_calculate_ppd] returns, its result is
    that of [FLIP::calculatePPD] on the same arguments, and the memory is
    as it was. *)
Theorem flip_calculate_ppd_forwards (viewing_distance resolution_x monitor_width : float)
    (m : memory) :
  flip_calculate_ppd N viewing_distance resolution_x monitor_width m
  = Some (FLIP.calculatePPD N viewing_distance resolution_x monitor_width, m).
Proof. reflexivity. Qed.

(** C9, as amended: with readable images, a valid output slot and a
    writable destination that, when the mean is asked for, lies in neither
    image, [flip_evaluate] returns and both images read as before; of the
    pointer slots only the output slot changed, and it holds a pointer to a
    block that did not exist before the call. *)
Theorem flip_evaluate_preserves_inputs reference test width height use_hdr parameters
    apply_magma_map compute_mean_error mean_error a m ref tst :
  0 < width -> 0 < height ->
  load_array m reference (3 * Z.to_nat (width * height)) = Some ref ->
  load_array m test (3 * Z.to_nat (width * height)) = Some tst ->
  is_Some (slots m !! a) ->
  (compute_mean_error <> 0 -> mean_error <> NULL -> is_Some (load m mean_error)) ->
  (compute_mean_error <> 0 ->
     ~ in_range reference (3 * Z.to_nat (width * height)) mean_error
     /\ ~ in_range test (3 * Z.to_nat (width * height)) mean_error) ->
  exists m',
    flip_evaluate N reference test width height use_hdr parameters apply_magma_map
      compute_mean_error mean_error (Some a) m = Some (tt, m')
    /\ load_array m' reference (3 * Z.to_nat (width * height)) = Some ref
    /\ load_array m' test (3 * Z.to_nat (width * height)) = Some tst
    /\ forall a' q, slots m' !! a' = Some q ->
         slots m !! a' = Some q
         \/ (a' = a /\ exists b, q = Ptr b 0 /\ b ∉ dom (floats m)).
Proof.
  intros Hw Hh Hr Ht Hs Hdst Hout.
  rewrite (flip_evaluate_unfold _ _ _ _ _ _ _ _ _ _ _ ref tst Hw Hh Hr Ht Hs).
  set (data := engine_samples N ref tst width height use_hdr parameters apply_magma_map).
  assert (Hslots : forall a' q, slots (engine_memory m a data) !! a' = Some q ->
            slots m !! a' = Some q
            \/ (a' = a /\ exists b, q = Ptr b 0 /\ b ∉ dom (floats m))).
  { intros a' q. simpl. destruct (decide (a = a')) as [<-|Hne].
    - rewrite lookup_insert_eq. intros [= <-]. right. split; [reflexivity|].
      eexists. split; [reflexivity | apply is_fresh].
    - rewrite lookup_insert_ne by exact Hne. by left. }
  unfold store_mean_error.
  destruct (nonzero compute_mean_error && non_null mean_error) eqn:Hc.
  - apply andb_true_iff in Hc as [Hc Hp].
    apply nonzero_true in Hc. apply non_null_true in Hp.
    destruct (Hdst Hc Hp) as [x Hx]. destruct (Hout Hc) as [Hor Hot].
    edestruct write_float_defined as [m' Hm'].
    { exists x. eapply load_after_new, Hx. }
    exists m'. split; [exact Hm'|].
    rewrite (load_array_after_write _ _ _ _ _ _ Hm' Hor).
    rewrite (load_array_after_write _ _ _ _ _ _ Hm' Hot).
    rewrite (write_float_slots _ _ _ _ Hm').
    repeat split; [by apply load_array_after_new | by apply load_array_after_new | exact Hslots].
  - eexists. split; [reflexivity|].
    repeat split; [by apply load_array_after_new | by apply load_array_after_new | exact Hslots].
Qed.

(** C10: two calls of [flip_evaluate] whose flags agree, flag by flag, on
    being zero, and whose other arguments are the same, do the same. *)
Theorem flip_evaluate_flags_truthiness reference test width height parameters
    mean_error error_map use_hdr use_hdr' apply_magma_map apply_magma_map'
    compute_mean_error compute_mean_error' :
  (use_hdr = 0 <-> use_hdr' = 0) ->
  (apply_magma_map = 0 <-> apply_magma_map' = 0) ->
  (compute_mean_error = 0 <-> compute_mean_error' = 0) ->
  forall m,
    flip_evaluate N reference test width height use_hdr parameters apply_magma_map
      compute_mean_error mean_error error_map m
    = flip_evaluate N reference test width height use_hdr' parameters apply_magma_map'
        compute_mean_error' mean_error error_map m.
Proof.
  intros Hh Hm Hc m. unfold flip_evaluate, store_mean_error.
  rewrite (nonzero_iff _ _ Hh), (nonzero_iff _ _ Hm), (nonzero_iff _ _ Hc).
  reflexivity.
Qed.

End Claims.

(** ** The statements at concrete calls

    [toy] stands for the library; [mem0] holds a 1x1 reference image in block
    1, a 1x1 test image in block 2, a scalar in block 3 and one pointer slot. *)

Lemma flip_evaluate_mean_error_witness :
  exists m',
    flip_evaluate toy (Ptr 1 0) (Ptr 2 0) 1 1 0 None 1 1 (Ptr 3 0) (Some 1%positive) mem0
    = Some (tt, m')
    /\ forall q v, load mem0 q = Some v ->
         load m' q =
           Some (if decide (1 <> 0 /\ Ptr 3 0 <> NULL /\ q = Ptr 3 0)
                 then FLIP.meanError toy [f_half; f_half; f_half] [f_half; f_one; f_half]
                        1 1 (nonzero 0) (setup_parameters toy None)
                 else v).
Proof.
  apply (flip_evaluate_mean_error toy (Ptr 1 0) (Ptr 2 0) 1 1 0 None 1 1 (Ptr 3 0)
           1%positive mem0 [f_half; f_half; f_half] [f_half; f_one; f_half]).
  - lia.
  - lia.
  - reflexivity.
  - reflexivity.
  - eexists. reflexivity.
  - intros _ _. eexists. reflexivity.
Defined.

Lemma flip_evaluate_null_parameters_witness :
  setup_parameters toy None = FLIP.default_Parameters toy
  /\ setup_parameters toy
       (Some (mkFlipParameters (Float32 0x45700000) f_infinity f_infinity (-1) (Some "aces")))
     = FLIP.default_Parameters toy
  /\ forall reference test width height use_hdr apply_magma_map compute_mean_error
       mean_error error_map m,
       flip_evaluate toy reference test width height use_hdr None apply_magma_map
         compute_mean_error mean_error error_map m
       = flip_evaluate toy reference test width height use_hdr
           (Some (mkFlipParameters (Float32 0x45700000) f_infinity f_infinity (-1)
                    (Some "aces")))
           apply_magma_map compute_mean_error mean_error error_map m.
Proof.
  apply (flip_evaluate_null_parameters toy
           (mkFlipParameters (Float32 0x45700000) f_infinity f_infinity (-1) (Some "aces")));
    reflexivity.
Defined.

(** C3, as stated, fails on an empty text: the pointer to it is not null, so
    the empty text replaces the default tonemapper. *)
Lemma empty_tonemapper_replaces_default :
  tonemapper (mkFlipParameters f_one f_infinity f_infinity (-1) (Some EmptyString))
  = Some EmptyString
  /\ FLIP.tonemapper
       (setup_parameters toy
          (Some (mkFlipParameters f_one f_infinity f_infinity (-1) (Some EmptyString))))
     = EmptyString
  /\ FLIP.tonemapper
       (setup_parameters toy
          (Some (mkFlipParameters f_one f_infinity f_infinity (-1) (Some EmptyString))))
     <> FLIP.tonemapper (FLIP.default_Parameters toy).
Proof. split; [reflexivity|]. split; [reflexivity|]. discriminate. Qed.

Lemma flip_evaluate_tonemapper_witness :
  FLIP.tonemapper (setup_parameters toy (Some (mkFlipParameters f_one f_zero f_half 4 None)))
  = FLIP.tonemapper (FLIP.default_Parameters toy)
  /\ FLIP.tonemapper
       (setup_parameters toy
          (Some (mkFlipParameters f_one f_zero f_half 4 (Some EmptyString))))
     = EmptyString.
Proof.
  split.
  - apply (proj1 (flip_evaluate_tonemapper toy (mkFlipParameters f_one f_zero f_half 4 None))).
    reflexivity.
  - apply (proj2 (flip_evaluate_tonemapper toy
                    (mkFlipParameters f_one f_zero f_half 4 (Some EmptyString)))
             EmptyString).
    reflexivity.
Defined.

Lemma flip_evaluate_error_map_length_witness :
  exists m' b data,
    flip_evaluate toy (Ptr 1 0) (Ptr 2 0) 1 1 0 None 1 1 (Ptr 3 0) (Some 1%positive) mem0
    = Some (tt, m')
    /\ slots m' !! 1%positive = Some (Ptr b 0)
    /\ (b ∉ dom (floats mem0))
    /\ floats m' !! b = Some data
    /\ Z.of_nat (length data) = 3.
Proof.
  apply (flip_evaluate_error_map_length toy (Ptr 1 0) (Ptr 2 0) 1 1 0 None 1 1 (Ptr 3 0)
           1%positive mem0 [f_half; f_half; f_half] [f_half; f_one; f_half]).
  - lia.
  - lia.
  - reflexivity.
  - reflexivity.
  - eexists. reflexivity.
  - intros _ _. eexists. reflexivity.
Defined.

(** C9, as stated, fails when the caller asks for the mean and points
    [mean_error] into the reference image: the first float of the image, one
    half before the call, is the mean after it. *)
Lemma mean_error_inside_reference_changes_it :
  exists m',
    flip_evaluate toy (Ptr 1 0) (Ptr 2 0) 1 1 0 None 0 1 (Ptr 1 0) (Some 1%positive) mem0
    = Some (tt, m')
    /\ load_array mem0 (Ptr 1 0) 3 = Some [f_half; f_half; f_half]
    /\ load_array m' (Ptr 1 0) 3 = Some [f_one; f_half; f_half].
Proof.
  eexists. split; [vm_compute; reflexivity|]. split; vm_compute; reflexivity.
Qed.

Lemma flip_evaluate_preserves_inputs_witness :
  exists m',
    flip_evaluate toy (Ptr 1 0) (Ptr 2 0) 1 1 0 None 1 1 (Ptr 3 0) (Some 1%positive) mem0
    = Some (tt, m')
    /\ load_array m' (Ptr 1 0) 3 = Some [f_half; f_half; f_half]
    /\ load_array m' (Ptr 2 0) 3 = Some [f_half; f_one; f_half]
    /\ forall a' q, slots m' !! a' = Some q ->
         slots mem0 !! a' = Some q
         \/ (a' = 1%positive /\ exists b, q = Ptr b 0 /\ b ∉ dom (floats mem0)).
Proof.
  apply (flip_evaluate_preserves_inputs toy (Ptr 1 0) (Ptr 2 0) 1 1 0 None 1 1 (Ptr 3 0)
           1%positive mem0 [f_half; f_half; f_half] [f_half; f_one; f_half]).
  - lia.
  - lia.
  - reflexivity.
  - reflexivity.
  - eexists. reflexivity.
  - intros _ _. eexists. reflexivity.
  - intros _. split; simpl; intros [H _]; discriminate H.
Defined.

Lemma flip_evaluate_flags_truthiness_witness :
  flip_evaluate toy (Ptr 1 0) (Ptr 2 0) 1 1 1 None 0 2 (Ptr 3 0) (Some 1%positive) mem0
  = flip_evaluate toy (Ptr 1 0) (Ptr 2 0) 1 1 (-3) None 0 7 (Ptr 3 0) (Some 1%positive) mem0.
Proof.
  apply (flip_evaluate_flags_truthiness toy (Ptr 1 0) (Ptr 2 0) 1 1 None (Ptr 3 0)
           (Some 1%positive) 1 (-3) 0 0 2 7); lia.
Defined.

(** ** Runs of the model on [mem0] *)

(** Sentinels, a negative count and a start above the stop go through as
    they are. *)
Example setup_parameters_sentinels :
  setup_parameters toy
    (Some (mkFlipParameters (Float32 0xff800000) f_infinity (Float32 0xff800000) (-7)
             (Some "hable")))
  = FLIP.mkParameters (Float32 0xff800000) f_infinity (Float32 0xff800000) (-7) "hable".
Proof. reflexivity. Qed.

(** Mean not asked for: the scalar in block 3 keeps the value it had. *)
Example mean_not_requested_keeps_sentinel :
  load mem0 (Ptr 3 0) = Some f_infinity
  /\ exists m',
       flip_evaluate toy (Ptr 1 0) (Ptr 2 0) 1 1 0 None 0 0 (Ptr 3 0) (Some 1%positive) mem0
       = Some (tt, m')
       /\ load m' (Ptr 3 0) = Some f_infinity
       /\ slots m' !! 1%positive = Some (Ptr 4 0)
       /\ floats m' !! 4%positive = Some [f_zero].
Proof.
  split; [reflexivity|]. eexists. split; [vm_compute; reflexivity|].
  repeat split; vm_compute; reflexivity.
Qed.

(** Mean asked for: the scalar holds the mean, the colour-mapped buffer has
    three floats. *)
Example mean_requested_is_stored :
  exists m',
    flip_evaluate toy (Ptr 1 0) (Ptr 2 0) 1 1 0 None 5 (-1) (Ptr 3 0) (Some 1%positive) mem0
    = Some (tt, m')
    /\ load m' (Ptr 3 0) = Some f_one
    /\ floats m' !! 4%positive = Some [f_zero; f_one; f_zero].
Proof.
  eexists. split; [vm_compute; reflexivity|]. split; vm_compute; reflexivity.
Qed.

(** The buffer handed back is released by one [flip_free]; a second one on
    the same pointer is undefined. *)
Example free_after_evaluate :
  (_ <-- flip_evaluate toy (Ptr 1 0) (Ptr 2 0) 1 1 0 None 0 0 NULL (Some 1%positive) ;;
   flip_free (Ptr 4 0)) mem0
  = Some (tt, Mem (floats mem0) ∅ (<[1%positive := Ptr 4 0]> (slots mem0)))
  /\ (_ <-- flip_evaluate toy (Ptr 1 0) (Ptr 2 0) 1 1 0 None 0 0 NULL (Some 1%positive) ;;
      _ <-- flip_free (Ptr 4 0) ;;
      flip_free (Ptr 4 0)) mem0
     = None.
Proof. split; vm_compute; reflexivity. Qed.

(** ** Ownership of the error map: [flip_evaluate] and [flip_free] together *)

Lemma write_float_inv m p v m' :
  write_float p v m = Some (tt, m') ->
  exists b ofs l,
    p = Ptr b ofs /\ floats m !! b = Some l /\ (ofs < length l)%nat
    /\ m' = Mem (<[b := <[ofs := v]> l]> (floats m)) (heap_arrays m) (slots m).
Proof.
  unfold write_float. destruct p as [|b ofs]; [discriminate|].
  destruct (floats m !! b) as [l|] eqn:Hb; [|discriminate].
  destruct (decide (ofs < length l)%nat) as [Hlt|]; [|discriminate].
  intros [= <-]. exists b, ofs, l. by rewrite Hb.
Qed.

Lemma write_float_dom m p v m' :
  write_float p v m = Some (tt, m') ->
  dom (floats m') = dom (floats m) /\ heap_arrays m' = heap_arrays m.
Proof.
  intros H. destruct (write_float_inv _ _ _ _ H) as (b & ofs & l & _ & Hb & _ & Hm').
  subst m'. simpl. split; [|reflexivity]. rewrite dom_insert_L.
  apply subseteq_union_1_L, singleton_subseteq_l, elem_of_dom. eauto.
Qed.

Lemma write_float_other_block m p v m' b l :
  write_float p v m = Some (tt, m') -> (forall ofs, p <> Ptr b ofs) ->
  floats m !! b = Some l -> floats m' !! b = Some l.
Proof.
  intros H Hne Hl.
  destruct (write_float_inv _ _ _ _ H) as (b0 & ofs & l0 & -> & _ & _ & ->).
  simpl. rewrite lookup_insert_ne; [exact Hl|]. intros ->. by apply (Hne ofs).
Qed.

Lemma store_mean_error_inv compute_mean_error mean_error mu m m' :
  store_mean_error compute_mean_error mean_error mu m = Some (tt, m') ->
  slots m' = slots m /\ heap_arrays m' = heap_arrays m
  /\ dom (floats m') = dom (floats m).
Proof.
  unfold store_mean_error.
  destruct (nonzero compute_mean_error && non_null mean_error).
  - intros H. destruct (write_float_dom _ _ _ _ H) as [Hd Hh].
    by rewrite (write_float_slots _ _ _ _ H).
  - by intros [= <-].
Qed.

Section Ownership.
Context (N : FLIP.Numerics).

Lemma evaluate_inv reference test width height useHDR parameters magma mean acc
    error_map m mu m1 :
  FLIP.evaluate N reference test width height useHDR parameters magma mean acc error_map m
  = Some (mu, m1) ->
  exists a data, error_map = Some a /\ m1 = engine_memory m a data.
Proof.
  unfold FLIP.evaluate.
  destruct (decide (0 < width ∧ 0 < height)); [|discriminate].
  unfold bind, read_array.
  destruct (load_array m reference _) as [ref|]; [|discriminate].
  destruct (load_array m test _) as [tst|]; [|discriminate].
  unfold new_array, write_slot. simpl.
  destruct error_map as [slot|]; [|discriminate].
  destruct (slots m !! slot); [|discriminate].
  intros [= _ <-]. eexists _, _. split; reflexivity.
Qed.

Lemma flip_evaluate_inv reference test width height use_hdr parameters apply_magma_map
    compute_mean_error mean_error error_map m m' :
  flip_evaluate N reference test width height use_hdr parameters apply_magma_map
    compute_mean_error mean_error error_map m = Some (tt, m') ->
  exists a,
    error_map = Some a
    /\ slots m' = <[a := Ptr (fresh (dom (floats m))) 0]> (slots m)
    /\ heap_arrays m' = {[fresh (dom (floats m))]} ∪ heap_arrays m
    /\ dom (floats m') = {[fresh (dom (floats m))]} ∪ dom (floats m).
Proof.
  unfold flip_evaluate, bind.
  destruct (FLIP.evaluate _ _ _ _ _ _ _ _ _ _ _ m) as [[mu m1]|] eqn:He; [|discriminate].
  destruct (evaluate_inv _ _ _ _ _ _ _ _ _ _ _ _ _ He) as (a & data & -> & ->).
  intros H. destruct (store_mean_error_inv _ _ _ _ _ H) as (Hs & Hh & Hd).
  exists a. rewrite Hs, Hh, Hd. simpl. by rewrite dom_insert_L.
Qed.

(** All that a defined call does to the memory. *)
Lemma flip_evaluate_facts reference test width height use_hdr parameters
    apply_magma_map compute_mean_error mean_error a m ref tst :
  0 < width -> 0 < height ->
  load_array m reference (3 * Z.to_nat (width * height)) = Some ref ->
  load_array m test (3 * Z.to_nat (width * height)) = Some tst ->
  is_Some (slots m !! a) ->
  (compute_mean_error <> 0 -> mean_error <> NULL -> is_Some (load m mean_error)) ->
  exists m',
    flip_evaluate N reference test width height use_hdr parameters apply_magma_map
      compute_mean_error mean_error (Some a) m = Some (tt, m')
    /\ slots m' = <[a := Ptr (fresh (dom (floats m))) 0]> (slots m)
    /\ heap_arrays m' = {[fresh (dom (floats m))]} ∪ heap_arrays m
    /\ dom (floats m') = {[fresh (dom (floats m))]} ∪ dom (floats m)
    /\ floats m' !! fresh (dom (floats m))
       = Some (engine_samples N ref tst width height use_hdr parameters apply_magma_map)
    /\ (forall q v, load m q = Some v ->
          load m' q =
            Some (if decide (compute_mean_error <> 0 /\ mean_error <> NULL /\ q = mean_error)
                  then FLIP.meanError N ref tst width height (nonzero use_hdr)
                         (setup_parameters N parameters)
                  else v))
    /\ (forall p n l, (compute_mean_error <> 0 -> ~ in_range p n mean_error) ->
          load_array m p n = Some l -> load_array m' p n = Some l)
    /\ (forall b l, (compute_mean_error <> 0 -> forall ofs, mean_error <> Ptr b ofs) ->
          floats m !! b = Some l -> floats m' !! b = Some l).
Proof.
  intros Hw Hh Hr Ht Hs Hdst.
  pose proof (flip_evaluate_unfold N _ _ _ _ use_hdr parameters apply_magma_map
                compute_mean_error mean_error _ _ ref tst Hw Hh Hr Ht Hs) as Hun.
  set (data := engine_samples N ref tst width height use_hdr parameters apply_magma_map) in *.
  set (b := fresh (dom (floats m))) in *.
  assert (Hfresh : b ∉ dom (floats m)) by apply is_fresh.
  assert (Hnew : forall b' l, floats m !! b' = Some l ->
            floats (engine_memory m a data) !! b' = Some l).
  { intros b' l Hl. simpl. rewrite lookup_insert_ne; [exact Hl|].
    intros Heq. apply Hfresh. fold b in Heq. rewrite Heq. apply elem_of_dom. eauto. }
  destruct (store_mean_error compute_mean_error mean_error
              (if nonzero compute_mean_error
               then FLIP.meanError N ref tst width height (nonzero use_hdr)
                      (setup_parameters N parameters)
               else f_zero) (engine_memory m a data)) as [[[] m']|] eqn:Hst.
  2:{ exfalso. unfold store_mean_error in Hst.
      destruct (nonzero compute_mean_error && non_null mean_error) eqn:Hc; [|discriminate].
      apply andb_true_iff in Hc as [Hc Hp].
      apply nonzero_true in Hc. apply non_null_true in Hp.
      destruct (Hdst Hc Hp) as [x Hx].
      destruct (write_float_defined (engine_memory m a data) mean_error
                  (FLIP.meanError N ref tst width height (nonzero use_hdr)
                     (setup_parameters N parameters))) as [m'' Hm''].
      { exists x. eapply load_after_new, Hx. }
      rewrite (proj2 (nonzero_true _) Hc) in Hst. congruence. }
  exists m'. split; [by rewrite Hun|].
  destruct (store_mean_error_inv _ _ _ _ _ Hst) as (Hsl & Hhp & Hdm).
  rewrite Hsl, Hhp, Hdm. simpl. rewrite dom_insert_L. fold b.
  do 3 (split; [reflexivity|]).
  unfold store_mean_error in Hst.
  destruct (nonzero compute_mean_error) eqn:Hc; simpl in Hst.
  - apply nonzero_true in Hc. destruct (non_null mean_error) eqn:Hp.
    + apply non_null_true in Hp. destruct (Hdst Hc Hp) as [x Hx].
      assert (Hblk : forall ofs, mean_error <> Ptr b ofs).
      { intros ofs ->. apply Hfresh. eapply load_Some_dom, Hx. }
      split; [|split; [|split]].
      * eapply write_float_other_block; [exact Hst | exact Hblk | apply lookup_insert_eq].
      * intros q v Hq. rewrite (load_after_write _ _ _ _ q Hst).
        destruct (decide (q = mean_error)) as [->|Hne].
        -- rewrite decide_True by tauto. reflexivity.
        -- rewrite decide_False by tauto. by apply load_after_new.
      * intros p n l Hout Hl.
        rewrite (load_array_after_write _ _ _ _ _ _ Hst (Hout Hc)).
        by apply load_array_after_new.
      * intros b' l Hout Hl. eapply write_float_other_block; [exact Hst | exact (Hout Hc) |].
        by apply Hnew.
    + injection Hst as <-. split; [|split; [|split]].
      * apply lookup_insert_eq.
      * intros q v Hq. rewrite decide_False; [by apply load_after_new|].
        intros (_ & Hnn & _). apply non_null_true in Hnn. congruence.
      * intros p n l _ Hl. by apply load_array_after_new.
      * intros b' l _ Hl. by apply Hnew.
  - injection Hst as <-. split; [|split; [|split]].
    + apply lookup_insert_eq.
    + intros q v Hq. rewrite decide_False; [by apply load_after_new|].
      intros (Hnz & _). apply nonzero_true in Hnz. congruence.
    + intros p n l _ Hl. by apply load_array_after_new.
    + intros b' l _ Hl. by apply Hnew.
Qed.

Lemma flip_free_inv ptr m m' :
  flip_free ptr m = Some (tt, m') ->
  (ptr = NULL /\ m' = m)
  \/ exists b, ptr = Ptr b 0 /\ b ∈ heap_arrays m
       /\ m' = Mem (delete b (floats m)) (heap_arrays m ∖ {[b]}) (slots m).
Proof.
  unfold flip_free. destruct ptr as [|b [|ofs]]; simpl.
  - intros [= <-]. by left.
  - destruct (decide (b ∈ heap_arrays m)) as [Hin|]; [|discriminate].
    intros [= <-]. right. by exists b.
  - discriminate.
Qed.

End Ownership.

Section OwnershipProperties.
Context (N : FLIP.Numerics).

(** X1: a call of [flip_evaluate] that returns in a well-formed memory was
    given an output slot; it has added exactly one block, which was neither a
    float object nor live before, to the float objects and to the live
    [new[]] blocks, released none, and changed no pointer slot but the output
    slot, which holds the start of that block. *)
Theorem flip_evaluate_allocates_one_block reference test width height use_hdr parameters
    apply_magma_map compute_mean_error mean_error error_map m m' :
  wf_memory m ->
  flip_evaluate N reference test width height use_hdr parameters apply_magma_map
    compute_mean_error mean_error error_map m = Some (tt, m') ->
  exists a b,
    error_map = Some a
    /\ (b ∉ dom (floats m))
    /\ (b ∉ heap_arrays m)
    /\ slots m' = <[a := Ptr b 0]> (slots m)
    /\ heap_arrays m' = {[b]} ∪ heap_arrays m
    /\ dom (floats m') = {[b]} ∪ dom (floats m).
Proof.
  intros Hwf H.
  destruct (flip_evaluate_inv N _ _ _ _ _ _ _ _ _ _ _ _ H) as (a & -> & Hs & Hh & Hd).
  exists a, (fresh (dom (floats m))).
  split; [reflexivity|]. split; [apply is_fresh|].
  split; [intros Hb; apply (is_fresh (dom (floats m))), Hwf, Hb|].
  by rewrite Hs, Hh, Hd.
Qed.

(** X2: [flip_evaluate] keeps the memory well formed: if every live [new[]]
    block is a float object before a call that returns, so it is after. *)
Theorem flip_evaluate_keeps_wf reference test width height use_hdr parameters
    apply_magma_map compute_mean_error mean_error error_map m m' :
  wf_memory m ->
  flip_evaluate N reference test width height use_hdr parameters apply_magma_map
    compute_mean_error mean_error error_map m = Some (tt, m') ->
  wf_memory m'.
Proof.
  unfold wf_memory. intros Hwf H.
  destruct (flip_evaluate_inv N _ _ _ _ _ _ _ _ _ _ _ _ H) as (a & _ & _ & Hh & Hd).
  rewrite Hh, Hd. by apply union_mono_l.
Qed.

(** X3: [flip_free] keeps the memory well formed. *)
Theorem flip_free_keeps_wf ptr m m' :
  wf_memory m -> flip_free ptr m = Some (tt, m') -> wf_memory m'.
Proof.
  unfold wf_memory. intros Hwf H.
  destruct (flip_free_inv _ _ _ H) as [[_ ->]|(b & _ & _ & ->)]; [exact Hwf|].
  simpl. rewrite dom_delete_L. intros x Hx.
  apply elem_of_difference in Hx as [Hx Hnb].
  apply elem_of_difference. split; [by apply Hwf | exact Hnb].
Qed.

(** X4: after [flip_free] has released a non-null pointer, a second
    [flip_free] on it is undefined, and no float can be read through it: the
    pointer was the start of a block, and the block is gone. *)
Theorem flip_free_twice ptr m m' :
  ptr <> NULL -> flip_free ptr m = Some (tt, m') ->
  flip_free ptr m' = None
  /\ exists b, ptr = Ptr b 0 /\ forall ofs, load m' (Ptr b ofs) = None.
Proof.
  intros Hnn H.
  destruct (flip_free_inv _ _ _ H) as [[-> _]|(b & -> & Hin & ->)]; [congruence|].
  split.
  - unfold flip_free, delete_array. simpl.
    rewrite decide_False; [reflexivity|].
    intros Hb. apply elem_of_difference in Hb as [_ Hb]. apply Hb.
    by apply elem_of_singleton.
  - exists b. split; [reflexivity|]. intros ofs. simpl.
    by rewrite lookup_delete_eq.
Qed.

(** X5: [flip_free] touches the released block only: every pointer slot
    holds what it held (the caller's copy of the released pointer too), and
    every other block has its floats and is live or not as before. *)
Theorem flip_free_frame ptr m m' :
  flip_free ptr m = Some (tt, m') ->
  slots m' = slots m
  /\ forall b, ptr <> Ptr b 0 ->
       floats m' !! b = floats m !! b /\ (b ∈ heap_arrays m' <-> b ∈ heap_arrays m).
Proof.
  intros H.
  destruct (flip_free_inv _ _ _ H) as [[_ ->]|(b0 & -> & _ & ->)]; [by split|].
  simpl. split; [reflexivity|]. intros b Hne.
  assert (b0 <> b) by congruence. split.
  - by apply lookup_delete_ne.
  - rewrite elem_of_difference, elem_of_singleton. split; [tauto|].
    intros Hb. split; [exact Hb | congruence].
Qed.

(** X6: in a well-formed memory, with readable images, a valid output slot
    and a writable destination, [flip_evaluate] returns and [flip_free] on
    the pointer it left in the output slot returns too; after the two calls
    the float objects and the live [new[]] blocks are those from before, and
    every float reads as before, but for the mean where it was stored. *)
Theorem flip_evaluate_then_free reference test width height use_hdr parameters
    apply_magma_map compute_mean_error mean_error a m ref tst :
  wf_memory m ->
  0 < width -> 0 < height ->
  load_array m reference (3 * Z.to_nat (width * height)) = Some ref ->
  load_array m test (3 * Z.to_nat (width * height)) = Some tst ->
  is_Some (slots m !! a) ->
  (compute_mean_error <> 0 -> mean_error <> NULL -> is_Some (load m mean_error)) ->
  exists m' p m'',
    flip_evaluate N reference test width height use_hdr parameters apply_magma_map
      compute_mean_error mean_error (Some a) m = Some (tt, m')
    /\ slots m' !! a = Some p
    /\ flip_free p m' = Some (tt, m'')
    /\ heap_arrays m'' = heap_arrays m
    /\ dom (floats m'') = dom (floats m)
    /\ forall q v, load m q = Some v ->
         load m'' q =
           Some (if decide (compute_mean_error <> 0 /\ mean_error <> NULL /\ q = mean_error)
                 then FLIP.meanError N ref tst width height (nonzero use_hdr)
                        (setup_parameters N parameters)
                 else v).
Proof.
  intros Hwf Hw Hh Hr Ht Hs Hdst.
  destruct (flip_evaluate_facts N _ _ _ _ use_hdr parameters apply_magma_map
              compute_mean_error mean_error _ _ ref tst Hw Hh Hr Ht Hs Hdst)
    as (m' & Hev & Hsl & Hhp & Hdm & _ & Hload & _ & _).
  set (b := fresh (dom (floats m))) in *.
  assert (Hfresh : b ∉ dom (floats m)) by apply is_fresh.
  assert (Hnl : b ∉ heap_arrays m) by (intros Hb; apply Hfresh, Hwf, Hb).
  exists m', (Ptr b 0), (Mem (delete b (floats m')) (heap_arrays m' ∖ {[b]}) (slots m')).
  split; [exact Hev|]. split; [rewrite Hsl; apply lookup_insert_eq|].
  split.
  { unfold flip_free, delete_array. simpl. rewrite decide_True; [reflexivity|].
    rewrite Hhp. apply elem_of_union_l. by apply elem_of_singleton. }
  simpl. split; [|split].
  - rewrite Hhp. apply set_eq. intros x.
    rewrite elem_of_difference, elem_of_union, elem_of_singleton.
    split; [intros [[->|Hx] Hne]; [congruence | exact Hx]|].
    intros Hx. split; [by right|]. intros ->. by apply Hnl.
  - rewrite dom_delete_L, Hdm. apply set_eq. intros x.
    rewrite elem_of_difference, elem_of_union, elem_of_singleton.
    split; [intros [[->|Hx] Hne]; [congruence | exact Hx]|].
    intros Hx. split; [by right|]. intros ->. by apply Hfresh.
  - intros q v Hq. rewrite <- (Hload q v Hq).
    destruct q as [|bq oq]; [discriminate|]. simpl.
    rewrite lookup_delete_ne; [reflexivity|].
    intros <-. apply Hfresh. eapply load_Some_dom, Hq.
Qed.


(** X8: two records are set up to the same library parameters exactly when
    their four numbers are equal and their tonemappers are equal once a null
    tonemapper is read as the default name. *)
Theorem setup_parameters_eq_iff (p q : FlipParameters) :
  setup_parameters N (Some p) = setup_parameters N (Some q)
  <-> (ppd p = ppd q
       /\ start_exposure p = start_exposure q
       /\ stop_exposure p = stop_exposure q
       /\ num_exposures p = num_exposures q
       /\ default (FLIP.tonemapper (FLIP.default_Parameters N)) (tonemapper p)
          = default (FLIP.tonemapper (FLIP.default_Parameters N)) (tonemapper q)).
Proof.
  unfold setup_parameters. split.
  - intros H.
    pose proof (f_equal FLIP.PPD H) as H1.
    pose proof (f_equal FLIP.startExposure H) as H2.
    pose proof (f_equal FLIP.stopExposure H) as H3.
    pose proof (f_equal FLIP.numExposures H) as H4.
    pose proof (f_equal FLIP.tonemapper H) as H5.
    destruct (tonemapper p), (tonemapper q); simpl in *; repeat split; assumption.
  - intros (Hp & Hs & Ht & Hn & Htm). rewrite Hp, Hs, Ht, Hn.
    destruct (tonemapper p), (tonemapper q); simpl in Htm; subst; reflexivity.
Qed.

(** X9: a record is set up to the default parameters, those of the null
    pointer, exactly when its four numbers are the defaults and its
    tonemapper is null or the default name; no value of a field stands for
    "keep the default" of a number. *)
Theorem setup_parameters_default_iff (p : FlipParameters) :
  setup_parameters N (Some p) = setup_parameters N None
  <-> (ppd p = FLIP.PPD (FLIP.default_Parameters N)
       /\ start_exposure p = FLIP.startExposure (FLIP.default_Parameters N)
       /\ stop_exposure p = FLIP.stopExposure (FLIP.default_Parameters N)
       /\ num_exposures p = FLIP.numExposures (FLIP.default_Parameters N)
       /\ (tonemapper p = None
           \/ tonemapper p = Some (FLIP.tonemapper (FLIP.default_Parameters N)))).
Proof.
  unfold setup_parameters. split.
  - intros H.
    pose proof (f_equal FLIP.PPD H) as H1.
    pose proof (f_equal FLIP.startExposure H) as H2.
    pose proof (f_equal FLIP.stopExposure H) as H3.
    pose proof (f_equal FLIP.numExposures H) as H4.
    pose proof (f_equal FLIP.tonemapper H) as H5.
    destruct (tonemapper p) as [s|]; simpl in *.
    + repeat split; try assumption. right. by rewrite H5.
    + repeat split; try assumption. by left.
  - intros (Hp & Hs & Ht & Hn & [Htm|Htm]); rewrite Htm, Hp, Hs, Ht, Hn; reflexivity.
Qed.

End OwnershipProperties.

(** ** The ownership statements at concrete calls *)

Lemma flip_evaluate_allocates_one_block_witness :
  exists a b,
    Some 1%positive = Some a
    /\ (b ∉ dom (floats mem_after_call))
    /\ (b ∉ heap_arrays mem_after_call)
    /\ slots (engine_memory mem_after_call 1 [f_zero])
       = <[a := Ptr b 0]> (slots mem_after_call)
    /\ heap_arrays (engine_memory mem_after_call 1 [f_zero])
       = {[b]} ∪ heap_arrays mem_after_call
    /\ dom (floats (engine_memory mem_after_call 1 [f_zero]))
       = {[b]} ∪ dom (floats mem_after_call).
Proof.
  apply (flip_evaluate_allocates_one_block toy (Ptr 1 0) (Ptr 2 0) 1 1 0 None 0 0 (Ptr 3 0)
           (Some 1%positive) mem_after_call (engine_memory mem_after_call 1 [f_zero])).
  - unfold wf_memory. apply (bool_decide_unpack _). vm_compute. exact I.
  - vm_compute. reflexivity.
Defined.

Lemma flip_evaluate_keeps_wf_witness : wf_memory mem_after_call.
Proof.
  apply (flip_evaluate_keeps_wf toy (Ptr 1 0) (Ptr 2 0) 1 1 0 None 0 0 (Ptr 3 0)
           (Some 1%positive) mem0 mem_after_call).
  - unfold wf_memory. apply (bool_decide_unpack _). vm_compute. exact I.
  - vm_compute. reflexivity.
Defined.

Lemma flip_free_keeps_wf_witness :
  wf_memory (Mem (floats mem0) ∅ (slots mem_after_call)).
Proof.
  apply (flip_free_keeps_wf (Ptr 4 0) mem_after_call).
  - unfold wf_memory. apply (bool_decide_unpack _). vm_compute. exact I.
  - vm_compute. reflexivity.
Defined.

Lemma flip_free_twice_witness :
  flip_free (Ptr 4 0) (Mem (floats mem0) ∅ (slots mem_after_call)) = None
  /\ exists b, Ptr 4 0 = Ptr b 0
       /\ forall ofs, load (Mem (floats mem0) ∅ (slots mem_after_call)) (Ptr b ofs) = None.
Proof.
  apply (flip_free_twice (Ptr 4 0) mem_after_call).
  - discriminate.
  - vm_compute. reflexivity.
Defined.

Lemma flip_free_frame_witness :
  slots (Mem (floats mem0) ∅ (slots mem_after_call)) = slots mem_after_call
  /\ forall b, Ptr 4 0 <> Ptr b 0 ->
       floats (Mem (floats mem0) ∅ (slots mem_after_call)) !! b
       = floats mem_after_call !! b
       /\ (b ∈ heap_arrays (Mem (floats mem0) ∅ (slots mem_after_call))
           <-> b ∈ heap_arrays mem_after_call).
Proof.
  apply (flip_free_frame (Ptr 4 0) mem_after_call).
  vm_compute. reflexivity.
Defined.

Lemma flip_evaluate_then_free_witness :
  exists m' p m'',
    flip_evaluate toy (Ptr 1 0) (Ptr 2 0) 1 1 0 None 1 1 (Ptr 3 0) (Some 1%positive) mem0
    = Some (tt, m')
    /\ slots m' !! 1%positive = Some p
    /\ flip_free p m' = Some (tt, m'')
    /\ heap_arrays m'' = heap_arrays mem0
    /\ dom (floats m'') = dom (floats mem0)
    /\ forall q v, load mem0 q = Some v ->
         load m'' q =
           Some (if decide (1 <> 0 /\ Ptr 3 0 <> NULL /\ q = Ptr 3 0)
                 then FLIP.meanError toy [f_half; f_half; f_half] [f_half; f_one; f_half]
                        1 1 (nonzero 0) (setup_parameters toy None)
                 else v).
Proof.
  apply (flip_evaluate_then_free toy (Ptr 1 0) (Ptr 2 0) 1 1 0 None 1 1 (Ptr 3 0)
           1%positive mem0 [f_half; f_half; f_half] [f_half; f_one; f_half]).
  - unfold wf_memory. apply (bool_decide_unpack _). vm_compute. exact I.
  - lia.
  - lia.
  - reflexivity.
  - reflexivity.
  - eexists. reflexivity.
  - intros _ _. eexists. reflexivity.
Defined.

